(** * The D1 HTTP gateway (src/index.ts), embedded and verified

    The worker in [src/index.ts] puts three POST routes in front of a D1
    database: [/query/all/], [/query/exec/] and [/query/batch/].  Every
    request runs [fetch], which checks the bindings, builds a [D1HTTP]
    object, registers the middleware and the routes on a fresh Hono
    application and dispatches the request.

    The embedding follows the file top to bottom: JavaScript values, the
    zod schemas, the [D1HTTP] class, the three handlers, and [fetch].  The
    database is a record of functions (the D1 binding is not part of the
    repository); every call made on it is appended to a log, so that
    "no backend call" is a statement about that log. *)

From Stdlib Require Import String Ascii List Bool Arith NArith Lia.
From Stdlib Require Import PrimFloat DecimalString.
Import ListNotations.
Open Scope string_scope.
Set Warnings "-register-all".

(* ------------------------------------------------------------------ *)
(** ** JavaScript values *)

(** An [Error] object: [name] is the constructor's name ("Error",
    "TypeError"), [message] the text given to it. *)
Record exn : Type := JsError { err_name : string; err_message : string }.

(** The values the handlers touch.  A number is an IEEE double, as in
    JavaScript.  An object is the list of its own enumerable properties in
    insertion order; an [Error] object has none, and is kept apart. *)
Inductive value : Type :=
| VUndefined
| VNull
| VBool (b : bool)
| VNum (x : float)
| VStr (s : string)
| VArr (xs : list value)
| VObj (fields : list (string * value))
| VError (e : exn).

(** ToBoolean: what [if (v)] and [v || d] test. *)
Definition truthy (v : value) : bool :=
  match v with
  | VUndefined | VNull => false
  | VBool b => b
  | VNum x => negb (PrimFloat.eqb x 0 || PrimFloat.is_nan x)
  | VStr s => negb (s =? EmptyString)
  | VArr _ | VObj _ | VError _ => true
  end.

(** [a || b] *)
Definition js_or (a b : value) : value := if truthy a then a else b.

Fixpoint lookup (k : string) (fields : list (string * value)) : option value :=
  match fields with
  | [] => None
  | (k', v) :: rest => if k =? k' then Some v else lookup k rest
  end.

(** [v.k] on a value that is neither null nor undefined: the property of
    an object, [undefined] when there is none. *)
Definition get (v : value) (k : string) : value :=
  match v with
  | VObj fields => match lookup k fields with Some x => x | None => VUndefined end
  | _ => VUndefined
  end.

(** [v?.k] *)
Definition opt_get (v : value) (k : string) : value :=
  match v with
  | VUndefined | VNull => VUndefined
  | _ => get v k
  end.

(** [`${err}`] for an [Error] object: Error.prototype.toString. *)
Definition exn_to_string (e : exn) : string :=
  if err_name e =? EmptyString then err_message e
  else if err_message e =? EmptyString then err_name e
  else err_name e ++ ": " ++ err_message e.

(** [`${n}`] for a non-negative integer. *)
Definition nat_to_string (n : N) : string := NilEmpty.string_of_uint (N.to_uint n).

(** [s.length] *)
Definition js_length (s : string) : N := N.of_nat (String.length s).

Definition is_string (v : value) : bool :=
  match v with VStr _ => true | _ => false end.



(** A character of a string is one code unit; the strings of the model
    are those whose code units are below 256.  [is_space] is the white
    space and the line terminators of ECMAScript among them: tab, line
    feed, vertical tab, form feed, carriage return (9 to 13), space (32)
    and no-break space (160).  The others (U+1680, U+2000 to U+200A,
    U+2028, U+2029, U+202F, U+205F, U+3000, U+FEFF) are above 255. *)
Definition is_space (c : ascii) : bool :=
  let n := nat_of_ascii c in
  (((9 <=? n) && (n <=? 13)) || (n =? 32) || (n =? 160))%nat.

Fixpoint trim_start (s : list ascii) : list ascii :=
  match s with
  | [] => []
  | c :: rest => if is_space c then trim_start rest else s
  end.

(** [String.prototype.trim]: the white space and line terminators at
    both ends are removed. *)
Definition trim (s : string) : string :=
  string_of_list_ascii
    (rev (trim_start (rev (trim_start (list_ascii_of_string s))))).

(* ------------------------------------------------------------------ *)
(** ** Completions and the handler monad *)

(** How an evaluation ends: with a value, or by throwing. *)
Inductive completion (A : Type) : Type :=
| Normal (a : A)
| Throw (e : exn).
Arguments Normal {A} a.
Arguments Throw {A} e.

(** The calls a request can make on the D1 binding. *)
Inductive db_call : Type :=
| CallPrepare (queryText : string)
| CallBind (args : list value)
| CallAll
| CallExec (queryText : string)
| CallBatch (statements : nat).

(** A computation that may call the database and may throw: it extends
    the log of calls and ends in a completion. *)
Definition M (A : Type) : Type := list db_call -> completion A * list db_call.

Definition ret {A} (a : A) : M A := fun log => (Normal a, log).

Definition throw {A} (e : exn) : M A := fun log => (Throw e, log).

Definition bindM {A B} (m : M A) (k : A -> M B) : M B :=
  fun log =>
    match m log with
    | (Normal a, log') => k a log'
    | (Throw e, log') => (Throw e, log')
    end.

(** [try { m } catch (err) { h err }] *)
Definition try_catch {A} (m : M A) (h : exn -> M A) : M A :=
  fun log =>
    match m log with
    | (Normal a, log') => (Normal a, log')
    | (Throw e, log') => h e log'
    end.

(** One call on the binding: logged, then completed as the binding says. *)
Definition call {A} (c : db_call) (r : completion A) : M A :=
  fun log => (r, (log ++ [c])%list).

Declare Scope monad_scope.
Delimit Scope monad_scope with monad.
Notation "x <- m ;; k" := (bindM m (fun x => k))
  (at level 61, m at next level, right associativity) : monad_scope.
Open Scope monad_scope.

(** Run a computation from the empty log. *)
Definition run_M {A} (m : M A) : completion A * list db_call := m [].

(* ------------------------------------------------------------------ *)
(** ** The zod schemas

    A schema parses a value into the data the handler receives, or
    rejects it.  The combinators are the ones the source chains: each
    method call of a chain wraps or extends the schema to its left. *)

Definition schema (A : Type) : Type := value -> option A.

(** The checks of a [z.string()] chain.  zod keeps them in the order the
    methods were called and runs them in that order over the current
    data; [trim] is one of them and replaces the data. *)
Inductive string_check : Type :=
| Min (n : N)
| Max (n : N)
| Trim.

(** One pass over the checks: the data as the checks leave it, and
    whether no check raised an issue. *)
Fixpoint run_checks (checks : list string_check) (data : string) : string * bool :=
  match checks with
  | [] => (data, true)
  | Min n :: rest =>
      let '(out, ok) := run_checks rest data in
      (out, negb (js_length data <? n)%N && ok)
  | Max n :: rest =>
      let '(out, ok) := run_checks rest data in
      (out, negb (n <? js_length data)%N && ok)
  | Trim :: rest => run_checks rest (trim data)
  end.

(** [z.string()] followed by the given checks. *)
Definition z_string (checks : list string_check) : schema string :=
  fun v =>
    match v with
    | VStr s => let '(out, ok) := run_checks checks s in
                if ok then Some out else None
    | _ => None
    end.

(** [z.any()] *)
Definition z_any : schema value := fun v => Some v.

Fixpoint parse_all {A} (s : schema A) (xs : list value) : option (list A) :=
  match xs with
  | [] => Some []
  | x :: rest =>
      match s x, parse_all s rest with
      | Some a, Some l => Some (a :: l)
      | _, _ => None
      end
  end.

(** [s.array()] *)
Definition z_array {A} (s : schema A) : schema (list A) :=
  fun v =>
    match v with
    | VArr xs => parse_all s xs
    | _ => None
    end.

(** [s.optional()] *)
Definition z_optional {A} (s : schema A) : schema (option A) :=
  fun v =>
    match v with
    | VUndefined => Some None
    | _ => option_map Some (s v)
    end.

(** [s.nonempty()] on an array schema. *)
Definition z_nonempty {A} (s : schema (list A)) : schema (list A) :=
  fun v =>
    match s v with
    | Some (x :: rest) => Some (x :: rest)
    | _ => None
    end.

(** The data a [/query/all/] handler reads: [query.queryText] and
    [query.params]. *)
Record PreparedQueryData : Type := mkPreparedQuery {
  queryText : string;
  params : option (list value)
}.

(** [const PreparedQuery = z.object({...})] (lines 27-31). *)
Definition PreparedQuery : schema PreparedQueryData :=
  fun v =>
    match v with
    | VObj _ =>
        match z_string [Min 1; Max 10000; Trim] (get v "queryText"),
              z_optional (z_array z_any) (get v "params") with
        | Some q, Some p => Some (mkPreparedQuery q p)
        | _, _ => None
        end
    | _ => None
    end.

(** [const ExecQuery = z.object({...})] (lines 33-36): the handler reads
    [query.queryText] only. *)
Definition ExecQuery : schema string :=
  fun v =>
    match v with
    | VObj _ => z_string [Min 1; Max 1000000; Trim] (get v "queryText")
    | _ => None
    end.

(** [const BatchQuery = z.object({ batch: ... })] (lines 38-40): the
    handler reads [batch.batch]. *)
Definition BatchQuery : schema (list PreparedQueryData) :=
  fun v =>
    match v with
    | VObj _ => z_nonempty (z_array PreparedQuery) (get v "batch")
    | _ => None
    end.

(* ------------------------------------------------------------------ *)
(** ** The D1 binding, requests and responses *)

(** The D1 binding [env.DB], as one request sees it.  It is not part of
    the repository: every method is a parameter, and each may throw.
    [all], [exec] and [batch] give back whatever value the binding
    resolves to. *)
Record D1Database : Type := mkD1Database {
  D1PreparedStatement : Type;
  prepare : string -> completion D1PreparedStatement;
  bind : D1PreparedStatement -> list value -> completion D1PreparedStatement;
  all : D1PreparedStatement -> completion value;
  exec : string -> completion value;
  batch : list D1PreparedStatement -> completion (list value)
}.

(** [type Bindings] (lines 16-25).  A binding that is not configured is
    [undefined], here [None]. *)
Record Env : Type := mkEnv {
  DB : option D1Database;
  APP_SECRET : option string
}.

(** What the handlers and the middleware read of a request: the method,
    the path, the [Authorization] header, and the body parsed as JSON
    ([None] when it is not JSON). *)
Record Request : Type := mkRequest {
  method : string;
  path : string;
  authorization : option string;
  json : option value
}.

(** A response body is either the value a handler gave to [c.json], or a
    body the framework wrote itself (what [bearerAuth], [zValidator] and
    the router answer with); the content of the latter is not fixed by
    anything under src/. *)
Inductive Body : Type :=
| JsonBody (v : value)
| FrameworkBody.

Record Response : Type := mkResponse {
  status : nat;
  body : Body
}.

(** [c.json(v, status)] *)
Definition c_json (v : value) (st : nat) : Response := mkResponse st (JsonBody v).

(** Hono's context [c]: [c.req] and [c.env]. *)
Record Context : Type := mkContext {
  req : Request;
  env : Env
}.

(** The TypeError of reading a property of [undefined]. *)
Definition type_error_reading (prop : string) : exn :=
  JsError "TypeError"
    ("Cannot read properties of undefined (reading '" ++ prop ++ "')").

(** [v.k] in full: reading a property of [null] or [undefined] throws. *)
Definition member (v : value) (k : string) : completion value :=
  match v with
  | VUndefined | VNull => Throw (type_error_reading k)
  | _ => Normal (get v k)
  end.

Definition lift {A} (r : completion A) : M A := fun log => (r, log).

(** [c.env.DB.k]: the binding, or the TypeError of reading [k] of
    [undefined]. *)
Definition env_DB (c : Context) (k : string) : M D1Database :=
  match DB (env c) with
  | Some d => ret d
  | None => throw (type_error_reading k)
  end.

(* ------------------------------------------------------------------ *)
(** ** Hono *)

(** A registered handler or middleware: it answers, or passes the
    request on ([next()]). *)
Definition Handler : Type := Context -> M (option Response).

(** One registration: [None] as method is "every method" ([use], [all]). *)
Record Route : Type := mkRoute {
  route_method : option string;
  route_path : string;
  route_handler : Handler
}.

(** A Hono application is the list of its registrations, oldest first. *)
Definition Hono : Type := list Route.

Definition new_Hono : Hono := [].

(** [app.use(path, middleware)] *)
Definition hono_use (app : Hono) (p : string) (h : Handler) : Hono :=
  (app ++ [mkRoute None p h])%list.

(** [app.all(path, handler)] *)
Definition hono_all (app : Hono) (p : string) (h : Context -> M Response) : Hono :=
  (app ++ [mkRoute None p (fun c => r <- h c;; ret (Some r))])%list.

(** [app.post(path, validator, handler)]: the validator answers itself
    or hands the validated data to the handler ([c.req.valid]). *)
Definition hono_post {A} (app : Hono) (p : string)
    (validator : Context -> Response + A)
    (h : Context -> A -> M Response) : Hono :=
  (app ++ [mkRoute (Some "POST") p
             (fun c => match validator c with
                       | inl rejected => ret (Some rejected)
                       | inr data => r <- h c data;; ret (Some r)
                       end)])%list.

Definition merge_path (base p : string) : string :=
  if prefix "/" p then base ++ p else base ++ "/" ++ p.

(** [app.route(base, sub)]: the registrations of [sub], under [base]. *)
Definition hono_route (app : Hono) (base : string) (sub : Hono) : Hono :=
  (app ++ map (fun r => mkRoute (route_method r)
                                (merge_path base (route_path r))
                                (route_handler r)) sub)%list.

(** The text before a final [*], for a pattern that ends in one. *)
Fixpoint wildcard_prefix (pattern : string) : option string :=
  match pattern with
  | EmptyString => None
  | String ch rest =>
      match rest with
      | EmptyString => if (ch =? "*")%char then Some EmptyString else None
      | _ => option_map (String ch) (wildcard_prefix rest)
      end
  end.

Definition path_matches (pattern p : string) : bool :=
  match wildcard_prefix pattern with
  | Some pre => prefix pre p
  | None => pattern =? p
  end.

Definition route_matches (r : Route) (rq : Request) : bool :=
  match route_method r with
  | None => true
  | Some m => m =? method rq
  end && path_matches (route_path r) (path rq).

Definition not_found : Response := mkResponse 404 FrameworkBody.

(** Modelled from the spec: Hono's router is not under src/.  Section 2
    of the specification gives the control flow (authenticator, then the
    route's validation, then the dispatcher); here the registrations that
    match the request run in the order they were made and the first
    answer is the response.  A request that nothing answers gets Hono's
    not-found response (404), which the specification does not describe. *)
Fixpoint dispatch (routes : list Route) (c : Context) : M Response :=
  match routes with
  | [] => ret not_found
  | r :: rest =>
      if route_matches r (req c) then
        answer <- route_handler r c;;
        match answer with
        | Some response => ret response
        | None => dispatch rest c
        end
      else dispatch rest c
  end.

(** [app.fetch(req, env, ctx)] *)
Definition hono_fetch (app : Hono) (rq : Request) (e : Env) : M Response :=
  dispatch app (mkContext rq e).

(** [prettyJSON()] and [logger()] format and log; neither answers. *)
Definition prettyJSON : Handler := fun _ => ret None.
Definition logger : Handler := fun _ => ret None.

Definition unauthorized : Response := mkResponse 401 FrameworkBody.

(** Modelled from the spec: hono's [bearerAuth] is not under src/.
    Section 4.1: the header must be present, of scheme [Bearer], and its
    token must equal the configured secret exactly; otherwise the request
    is rejected with a generic 401 before it reaches any handler. *)
Definition bearerAuth (token : string) : Handler :=
  fun c =>
    match authorization (req c) with
    | Some header =>
        if header =? "Bearer " ++ token then ret None
        else ret (Some unauthorized)
    | None => ret (Some unauthorized)
    end.

Definition invalid : Response := mkResponse 400 FrameworkBody.

(** Modelled from the spec: [zValidator] of @hono/zod-validator is not
    under src/.  Section 4.2: the parsed JSON body is validated against
    the route's schema before any backend call, and a failure
    short-circuits with a 400 response. *)
Definition zValidator {A} (s : schema A) : Context -> Response + A :=
  fun c =>
    match json (req c) with
    | None => inl invalid
    | Some v => match s v with
                | Some data => inr data
                | None => inl invalid
                end
    end.

(* ------------------------------------------------------------------ *)
(** ** The [D1HTTP] class (lines 61-83) *)

Definition MIN_SECRET_LENGTH : N := 16.

Record D1HTTP : Type := mkD1HTTP {
  db : D1Database;
  sharedSecret : string;
  honoInstance : Hono
}.

Definition secret_too_short : exn :=
  JsError "Error"
    ("sharedSecret not long enough: must be at least "
       ++ nat_to_string MIN_SECRET_LENGTH ++ " bytes long").

(** [new D1HTTP(db, sharedSecret, honoInstance?)].  The secret comes from
    [env.APP_SECRET], which is [undefined] ([None]) when the secret is
    not configured; the constructor reads its [length] first. *)
Definition D1HTTP_new (d : D1Database) (secret : option string)
    (hono : option Hono) : completion D1HTTP :=
  match secret with
  | None => Throw (type_error_reading "length")
  | Some s =>
      if (js_length s <? MIN_SECRET_LENGTH)%N then Throw secret_too_short
      else Normal (mkD1HTTP d s (match hono with
                                 | Some h => h
                                 | None => new_Hono
                                 end))
  end.

(** [d1API.app()] *)
Definition app (d : D1HTTP) : Hono := honoInstance d.

(** [d1API.run(req, env, ctx)] *)
Definition run (d : D1HTTP) (rq : Request) (e : Env) : M Response :=
  hono_fetch (honoInstance d) rq e.

(* ------------------------------------------------------------------ *)
(** ** The handlers (lines 121-204)

    The three handlers have one shape: a [try] block that builds the
    response value, a [catch] block that returns an error response at
    once, and after them [c.json] on the value built.  [try_json] is that
    shape; the console output is not modelled. *)

Definition finish (r : value + Response) (st : nat) : M Response :=
  match r with
  | inl resp => ret (c_json resp st)
  | inr early => ret early
  end.

Definition try_json (block : M value) (on_error : exn -> Response) (st : nat)
    : M Response :=
  r <- try_catch (resp <- block;; ret (inl resp))
                 (fun err => ret (inr (on_error err)));;
  finish r st.

(** The [try] block of [/all/] (lines 124-134). *)
Definition all_block (c : Context) (query : PreparedQueryData) : M value :=
  d <- env_DB c "prepare";;
  stmt <- call (CallPrepare (queryText query)) (prepare d (queryText query));;
  stmt <- match params query with
          | Some ps => call (CallBind ps) (bind d stmt ps)
          | None => ret stmt
          end;;
  result <- call CallAll (all d stmt);;
  results <- lift (member result "results");;
  meta <- lift (member result "meta");;
  ret (VObj [("results", results); ("meta", meta)]).

(** [query.post("/all/", ...)] (lines 121-142). *)
Definition all_handler (c : Context) (query : PreparedQueryData) : M Response :=
  try_json (all_block c query)
    (fun err =>
       let msg := "failed to run query: " ++ exn_to_string err in
       c_json (VObj [("error", VStr msg)]) 500)
    200.

(** The [try] block of [/exec/] (lines 154-163). *)
Definition exec_block (c : Context) (query : string) : M value :=
  d <- env_DB c "exec";;
  out <- call (CallExec query) (exec d query);;
  ret (VObj [("count", js_or (opt_get out "count") (VNum 0));
             ("durationMs", js_or (opt_get out "duration") (VNum 0))]).

(** [query.post("/exec/", ...)] (lines 151-170). *)
Definition exec_handler (c : Context) (query : string) : M Response :=
  try_json (exec_block c query)
    (fun err => c_json (VObj [("error", VError err)]) 500)
    200.

(** The first loop of the batch handler (lines 177-185): one statement
    per query, pushed in the order of the batch. *)
Fixpoint prepare_statements (d : D1Database) (queries : list PreparedQueryData)
    (statements : list (D1PreparedStatement d)) : M (list (D1PreparedStatement d)) :=
  match queries with
  | [] => ret statements
  | query :: rest =>
      stmt <- call (CallPrepare (queryText query)) (prepare d (queryText query));;
      pushed <- match params query with
                | Some ps => bound <- call (CallBind ps) (bind d stmt ps);;
                             ret (statements ++ [bound])%list
                | None => ret (statements ++ [stmt])%list
                end;;
      prepare_statements d rest pushed
  end.

(** The [QueryResponse] built from one result (lines 190-194). *)
Definition query_response (result : value) : M value :=
  results <- lift (member result "results");;
  error <- lift (member result "error");;
  meta <- lift (member result "meta");;
  ret (VObj [("results", results); ("error", error); ("meta", meta)]).

(** The second loop (lines 189-196): one response per result, pushed in
    the order the binding returned them. *)
Fixpoint collect_results (batchResults : list value) (batchResp : list value)
    : M (list value) :=
  match batchResults with
  | [] => ret batchResp
  | result :: rest =>
      queryResp <- query_response result;;
      collect_results rest (batchResp ++ [queryResp])%list
  end.

(** The [try] block of [/batch/] (lines 175-196). *)
Definition batch_block (c : Context) (queries : list PreparedQueryData) : M value :=
  d <- env_DB c "prepare";;
  statements <- prepare_statements d queries [];;
  batchResults <- call (CallBatch (List.length statements)) (batch d statements);;
  batchResp <- collect_results batchResults [];;
  ret (VArr batchResp).

(** [query.post("/batch/", ...)] (lines 172-204); [c.json(batchResp)]
    answers with status 200. *)
Definition batch_handler (c : Context) (queries : list PreparedQueryData) : M Response :=
  try_json (batch_block c queries)
    (fun err =>
       let msg := "failed to batch query: " ++ exn_to_string err in
       c_json (VObj [("error", VStr msg)]) 500)
    200.

(** [app.all("/", ...)] (lines 206-208): [showRoutes] prints the routes
    and returns nothing. *)
Definition root_handler (c : Context) : M Response := ret (c_json VUndefined 200).

(* ------------------------------------------------------------------ *)
(** ** The worker's [fetch] (lines 86-212) *)

Definition database_not_connected : exn :=
  JsError "Error"
    "A D1 database is not connected to the API. Confirm you have a [[d1_database]] binding called 'DB' created.".

(** The routes of the [query] group (lines 102-204). *)
Definition query_routes (d1API : D1HTTP) : Hono :=
  let query := new_Hono in
  let query := hono_use query "*" (bearerAuth (sharedSecret d1API)) in
  let query := hono_post query "/all/" (zValidator PreparedQuery) all_handler in
  let query := hono_post query "/exec/" (zValidator ExecQuery) exec_handler in
  let query := hono_post query "/batch/" (zValidator BatchQuery) batch_handler in
  query.

(** The application [fetch] assembles.  [app] is the Hono instance of
    [d1API] itself, so what is registered on [app] is what [d1API.run]
    dispatches on. *)
Definition assemble (d1API : D1HTTP) : D1HTTP :=
  let app0 := app d1API in
  let app1 := hono_use app0 "*" prettyJSON in
  let app2 := hono_use app1 "*" logger in
  let app3 := hono_all app2 "/" root_handler in
  let app4 := hono_route app3 "/query" (query_routes d1API) in
  mkD1HTTP (db d1API) (sharedSecret d1API) app4.

Definition fetch (rq : Request) (e : Env) : M Response :=
  match DB e with
  | None => throw database_not_connected
  | Some d =>
      match D1HTTP_new d (APP_SECRET e) None with
      | Throw err => throw err
      | Normal d1API => run (assemble d1API) rq e
      end
  end.

(* ------------------------------------------------------------------ *)
(** ** A stub binding and sample requests, for the examples *)

(** A binding whose statements are the query text with the bound
    arguments, and whose results name the text they come from. *)
Definition sentinel (st : string * list value) : value :=
  VObj [("results", VArr [VObj [("query", VStr (fst st))]]);
        ("meta", VObj [("duration", VNum 0.5)])].

Definition syntax_error : exn := JsError "Error" "D1_EXEC_ERROR: syntax error".

Definition stub_db : D1Database :=
  mkD1Database (string * list value)
    (fun q => Normal (q, []))
    (fun st args => Normal (fst st, args))
    (fun st => if fst st =? "SELEC 1" then Throw syntax_error else Normal (sentinel st))
    (fun q => if q =? "SELEC 1" then Throw syntax_error
              else Normal (VObj [("count", VNum 1); ("duration", VNum 0.5)]))
    (fun sts => Normal (map sentinel sts)).

Definition stub_secret : string := "0123456789abcdef".

Definition stub_env : Env := mkEnv (Some stub_db) (Some stub_secret).

Definition bearer (token : string) : option string := Some ("Bearer " ++ token).

Definition post (p : string) (auth : option string) (payload : value) : Request :=
  mkRequest "POST" p auth (Some payload).

(** Sample requests. *)
Definition misspelled : value := VObj [("queryText", VStr "SELEC 1")].

Definition empty_batch : value := VObj [("batch", VArr [])].

Definition two_queries : value :=
  VObj [("batch", VArr [VObj [("queryText", VStr "SELECT 1")];
                        VObj [("queryText", VStr "SELECT ?"); ("params", VArr [VNum 2])]])].

Definition insert_one : value :=
  VObj [("queryText", VStr "INSERT INTO users VALUES(1,'a@example.com')")].

(* ------------------------------------------------------------------ *)
(** ** Vocabulary of the statements below *)

(** The worker is configured: the database is bound and the secret is a
    string of at least [MIN_SECRET_LENGTH] characters. *)
Definition configured (e : Env) (d : D1Database) (s : string) : Prop :=
  DB e = Some d /\ APP_SECRET e = Some s /\ (MIN_SECRET_LENGTH <= js_length s)%N.

(** The request is for a route of the [query] group. *)
Definition query_route (rq : Request) : Prop := prefix "/query/" (path rq) = true.

Definition nullish (v : value) : bool :=
  match v with VUndefined | VNull => true | _ => false end.

(** The statement the batch loop pushes for one query. *)
Definition statement_of (d : D1Database) (q : PreparedQueryData)
    : completion (D1PreparedStatement d) :=
  match prepare d (queryText q) with
  | Normal stmt => match params q with
                   | Some ps => bind d stmt ps
                   | None => Normal stmt
                   end
  | Throw e => Throw e
  end.

(** The calls the batch loop makes for one query. *)
Definition calls_of (q : PreparedQueryData) : list db_call :=
  CallPrepare (queryText q)
    :: match params q with Some ps => [CallBind ps] | None => [] end.

(** The [QueryResponse] of a result that is an object. *)
Definition query_shape (result : value) : value :=
  VObj [("results", get result "results"); ("error", get result "error");
        ("meta", get result "meta")].

(** The bearer check on its own. *)
Definition authorized (s : string) (rq : Request) : bool :=
  match authorization rq with
  | Some header => header =? "Bearer " ++ s
  | None => false
  end.

(** A validator and its handler, as [hono_post] chains them. *)
Definition validated {A} (s : schema A) (h : Context -> A -> M Response)
    (c : Context) : M Response :=
  match zValidator s c with
  | inl rejected => ret rejected
  | inr data => h c data
  end.

(** The pipeline of section 2 of the specification, written out for the
    routes of the worker: the root route, then for the [query] group the
    authenticator, the route's validator and its handler.  [fetch_pipeline]
    below proves that the configured worker is this function. *)
Definition pipeline (s : string) (rq : Request) (e : Env) : M Response :=
  let c := mkContext rq e in
  if "/" =? path rq then root_handler c
  else if prefix "/query/" (path rq) then
    if authorized s rq then
      if "POST" =? method rq then
        if "/query/all/" =? path rq then validated PreparedQuery all_handler c
        else if "/query/exec/" =? path rq then validated ExecQuery exec_handler c
        else if "/query/batch/" =? path rq then validated BatchQuery batch_handler c
        else ret not_found
      else ret not_found
    else ret unauthorized
  else ret not_found.

(** A body of the form [{ error: string }]. *)
Definition error_string_body (b : Body) : Prop :=
  exists msg, b = JsonBody (VObj [("error", VStr msg)]).

(* ------------------------------------------------------------------ *)
(** ** More vocabulary: text ends, error responses, routes, further stubs *)

(** The text starts (resp. ends) with a white-space character. *)
Definition leading_space (s : string) : bool :=
  match list_ascii_of_string s with
  | c :: _ => is_space c
  | [] => false
  end.

Definition trailing_space (s : string) : bool :=
  match rev (list_ascii_of_string s) with
  | c :: _ => is_space c
  | [] => false
  end.

(** The JSON body that spells out a validated query again. *)
Definition encode_query (q : PreparedQueryData) : value :=
  VObj (("queryText", VStr (queryText q))
          :: match params q with
             | Some ps => [("params", VArr ps)]
             | None => []
             end).

(** The response of the [catch] branches of [/all/] and [/batch/]:
    [c.json({ error: `<text>${err}` }, 500)]. *)
Definition failed (text : string) (err : exn) : Response :=
  c_json (VObj [("error", VStr (text ++ exn_to_string err))]) 500.

(** A binding that rejects the misspelled statement when it is prepared,
    and rejects every batch. *)
Definition batch_rejected : exn := JsError "Error" "D1_ERROR: batch failed".

Definition strict_db : D1Database :=
  mkD1Database (string * list value)
    (fun q => if q =? "SELEC 1" then Throw syntax_error else Normal (q, []))
    (fun st args => Normal (fst st, args))
    (fun st => Normal (sentinel st))
    (fun q => Normal VNull)
    (fun sts => Throw batch_rejected).

Definition strict_env : Env := mkEnv (Some strict_db) (Some stub_secret).

(** A binding that resolves every call, but not to what D1 documents:
    [exec] resolves to an object whose [count] is a string and whose
    [duration] is a boolean, and [batch] resolves to the empty array. *)
Definition loose_db : D1Database :=
  mkD1Database (string * list value)
    (fun q => Normal (q, []))
    (fun st args => Normal (fst st, args))
    (fun st => Normal (sentinel st))
    (fun q => Normal (VObj [("count", VStr "7"); ("duration", VBool true)]))
    (fun sts => Normal []).

Definition loose_env : Env := mkEnv (Some loose_db) (Some stub_secret).



(* ------------------------------------------------------------------ *)
(** ** The schemas *)

Lemma run_checks_query (hi : N) (s : string) :
  run_checks [Min 1; Max hi; Trim] s
  = (trim s, negb (js_length s <? 1)%N && (negb (hi <? js_length s)%N && true)).
Proof. reflexivity. Qed.

(** What a string the [queryText] chain accepts looks like: it is the
    trimmed form of a string whose own length is within the bounds. *)
Lemma z_string_query (hi : N) (v : value) (out : string) :
  z_string [Min 1; Max hi; Trim] v = Some out ->
  exists s, v = VStr s /\ out = trim s /\ (1 <= js_length s <= hi)%N.
Proof.
  destruct v as [| | | |s| | |]; simpl; try discriminate.
  destruct (N.ltb_spec (js_length s) 1), (N.ltb_spec hi (js_length s));
    simpl; try discriminate.
  intros [= <-]. exists s. repeat split; assumption.
Qed.

Lemma z_string_query_accepts (hi : N) (s : string) :
  (1 <= js_length s <= hi)%N ->
  z_string [Min 1; Max hi; Trim] (VStr s) = Some (trim s).
Proof.
  intros [Hlo Hhi]. simpl.
  destruct (N.ltb_spec (js_length s) 1), (N.ltb_spec hi (js_length s));
    simpl; try reflexivity; lia.
Qed.

Example trim_both_ends : trim "  SELECT 1 " = "SELECT 1".
Proof. reflexivity. Qed.

Example trim_keeps_inner_space : trim "a b" = "a b".
Proof. reflexivity. Qed.

Example trim_no_break_space :
  trim (String (ascii_of_nat 160) ("SELECT 1" ++ String (ascii_of_nat 160) EmptyString))
  = "SELECT 1".
Proof. reflexivity. Qed.

Lemma parse_all_any (xs : list value) : parse_all z_any xs = Some xs.
Proof.
  induction xs as [|x xs IH]; simpl; [reflexivity|].
  rewrite IH. reflexivity.
Qed.

Lemma parse_all_Forall2 {A} (s : schema A) (xs : list value) (l : list A) :
  parse_all s xs = Some l -> Forall2 (fun x a => s x = Some a) xs l.
Proof.
  revert l. induction xs as [|x xs IH]; simpl; intros l H.
  - injection H as <-. constructor.
  - destruct (s x) as [a|] eqn:Hx; [|discriminate].
    destruct (parse_all s xs) as [l'|]; [|discriminate].
    injection H as <-. constructor; [assumption | apply IH; reflexivity].
Qed.


(** C2: the [queryText] chain is [min(1).max(..).trim()], so the length
    is checked before the string is trimmed: a body whose [queryText] is
    a single space passes both validators, the handler receives the empty
    string, and [/query/all/] prepares the empty statement.  The claim
    (no white-space-only [queryText] passes validation, the delivered
    text is non-empty) fails on this input. *)
Theorem whitespace_queryText_passes :
  PreparedQuery (VObj [("queryText", VStr " ")])
    = Some (mkPreparedQuery EmptyString None)
  /\ ExecQuery (VObj [("queryText", VStr " ")]) = Some EmptyString
  /\ snd (run_M (fetch (post "/query/all/" (bearer stub_secret)
                          (VObj [("queryText", VStr " ")])) stub_env))
     = [CallPrepare EmptyString; CallAll].
Proof. repeat split; vm_compute; reflexivity. Qed.




(* ------------------------------------------------------------------ *)
(** ** From [fetch] to the pipeline *)

Lemma try_json_eq (block : M value) (h : exn -> Response) (st : nat) (log : list db_call) :
  try_json block h st log
  = match block log with
    | (Normal v, l) => (Normal (c_json v st), l)
    | (Throw e, l) => (Normal (h e), l)
    end.
Proof.
  unfold try_json, try_catch, bindM, finish, ret.
  destruct (block log) as [[v|e] l]; reflexivity.
Qed.

Lemma fetch_configured (rq : Request) (e : Env) (d : D1Database) (s : string) :
  configured e d s -> fetch rq e = run (assemble (mkD1HTTP d s new_Hono)) rq e.
Proof.
  intros (HDB & HS & Hlen). unfold fetch, D1HTTP_new. rewrite HDB, HS.
  destruct (N.ltb_spec (js_length s) MIN_SECRET_LENGTH); [lia|reflexivity].
Qed.

(** The patterns of the seven registrations, as tests on the path. *)
Lemma path_matches_star (p : string) : path_matches "*" p = true.
Proof. destruct p; reflexivity. Qed.

Lemma path_matches_root (p : string) : path_matches "/" p = ("/" =? p).
Proof. reflexivity. Qed.

Lemma path_matches_group (p : string) :
  path_matches (merge_path "/query" "*") p = prefix "/query/" p.
Proof. reflexivity. Qed.

Lemma path_matches_all (p : string) :
  path_matches (merge_path "/query" "/all/") p = ("/query/all/" =? p).
Proof. reflexivity. Qed.

Lemma path_matches_exec (p : string) :
  path_matches (merge_path "/query" "/exec/") p = ("/query/exec/" =? p).
Proof. reflexivity. Qed.

Lemma path_matches_batch (p : string) :
  path_matches (merge_path "/query" "/batch/") p = ("/query/batch/" =? p).
Proof. reflexivity. Qed.

Lemma group_prefix (suffix p : string) :
  ("/query/" ++ suffix =? p) = true -> prefix "/query/" p = true.
Proof.
  intros H. apply String.eqb_eq in H. subst p. destruct suffix; reflexivity.
Qed.

Lemma root_not_group (p : string) :
  ("/" =? p) = true -> prefix "/query/" p = false.
Proof. intros H. apply String.eqb_eq in H. subst p. reflexivity. Qed.

(** The configured worker is the pipeline: the registrations [fetch]
    makes, dispatched in order, decide exactly as [pipeline] does. *)
Lemma fetch_pipeline (rq : Request) (e : Env) (d : D1Database) (s : string)
    (log : list db_call) :
  configured e d s -> fetch rq e log = pipeline s rq e log.
Proof.
  intros Hc. rewrite (fetch_configured _ _ _ _ Hc).
  unfold run, hono_fetch, pipeline, assemble, query_routes, app, new_Hono,
    hono_use, hono_all, hono_post, hono_route.
  cbn [honoInstance sharedSecret List.app map route_method route_path route_handler].
  cbn [dispatch]. unfold route_matches.
  cbn [route_method route_path route_handler req andb].
  rewrite !path_matches_star, path_matches_root, path_matches_group,
    path_matches_all, path_matches_exec, path_matches_batch.
  unfold prettyJSON, logger, bearerAuth, authorized, validated, root_handler.
  cbn [req]. cbv beta iota delta [bindM ret].
  destruct ("/" =? path rq) eqn:Hroot.
  - reflexivity.
  - destruct (prefix "/query/" (path rq)) eqn:Hgroup.
    + destruct (authorization rq) as [header|]; [|reflexivity].
      destruct (header =? "Bearer " ++ s); [|reflexivity].
      destruct ("POST" =? method rq); cbv beta iota delta [andb]; [|reflexivity].
      destruct ("/query/all/" =? path rq).
      { destruct (zValidator PreparedQuery _); [reflexivity|].
        destruct (all_handler _ _ _) as [[?|?] ?]; reflexivity. }
      destruct ("/query/exec/" =? path rq).
      { destruct (zValidator ExecQuery _); [reflexivity|].
        destruct (exec_handler _ _ _) as [[?|?] ?]; reflexivity. }
      destruct ("/query/batch/" =? path rq).
      { destruct (zValidator BatchQuery _); [reflexivity|].
        destruct (batch_handler _ _ _) as [[?|?] ?]; reflexivity. }
      reflexivity.
    + destruct ("/query/all/" =? path rq) eqn:H1;
        [apply (group_prefix "all/") in H1; congruence|].
      destruct ("/query/exec/" =? path rq) eqn:H2;
        [apply (group_prefix "exec/") in H2; congruence|].
      destruct ("/query/batch/" =? path rq) eqn:H3;
        [apply (group_prefix "batch/") in H3; congruence|].
      rewrite !andb_false_r. reflexivity.
Qed.

(* ------------------------------------------------------------------ *)
(** ** The constructor *)

(** C8: the constructor throws the configuration error for every secret
    shorter than 16 characters, and for every secret of 16 characters or
    more it returns an object that holds the secret unchanged. *)
Theorem constructor_checks_secret_length (d : D1Database) (s : string)
    (hono : option Hono) :
  ((js_length s < 16)%N ->
     D1HTTP_new d (Some s) hono = Throw secret_too_short
     /\ err_message secret_too_short
        = "sharedSecret not long enough: must be at least 16 bytes long")
  /\ ((16 <= js_length s)%N ->
        exists api, D1HTTP_new d (Some s) hono = Normal api
                    /\ sharedSecret api = s /\ db api = d).
Proof.
  unfold D1HTTP_new, MIN_SECRET_LENGTH. split; intros H.
  - destruct (N.ltb_spec (js_length s) 16); [|lia]. split; reflexivity.
  - destruct (N.ltb_spec (js_length s) 16); [lia|].
    eexists. repeat split.
Qed.

Lemma constructor_checks_secret_length_witness :
  (D1HTTP_new stub_db (Some "too short") None = Throw secret_too_short
   /\ err_message secret_too_short
      = "sharedSecret not long enough: must be at least 16 bytes long")
  /\ exists api, D1HTTP_new stub_db (Some stub_secret) None = Normal api
                 /\ sharedSecret api = stub_secret /\ db api = stub_db.
Proof.
  split.
  - apply (proj1 (constructor_checks_secret_length stub_db "too short" None)).
    vm_compute. reflexivity.
  - apply (proj2 (constructor_checks_secret_length stub_db stub_secret None)).
    vm_compute. discriminate.
Defined.

(** C9: with the secret absent the constructor never reaches its length
    check: reading [length] of [undefined] throws a TypeError, which is
    not the configuration error, and [fetch] lets it escape. *)
Theorem missing_secret_is_a_type_error (d : D1Database) (hono : option Hono)
    (rq : Request) :
  D1HTTP_new d None hono = Throw (type_error_reading "length")
  /\ err_name (type_error_reading "length") = "TypeError"
  /\ type_error_reading "length" <> secret_too_short
  /\ run_M (fetch rq (mkEnv (Some d) None))
     = (Throw (type_error_reading "length"), []).
Proof. repeat split. discriminate. Qed.

(* ------------------------------------------------------------------ *)
(** ** The handlers *)

Lemma env_DB_bound (c : Context) (d : D1Database) (k : string) :
  DB (env c) = Some d -> env_DB c k = ret d.
Proof. unfold env_DB. intros ->. reflexivity. Qed.

(** The [catch] branch of [/exec/] puts the caught object itself in the
    body. *)
Lemma exec_handler_catch (c : Context) (d : D1Database) (q : string) (err : exn)
    (log : list db_call) :
  DB (env c) = Some d -> exec d q = Throw err ->
  exec_handler c q log
  = (Normal (c_json (VObj [("error", VError err)]) 500), (log ++ [CallExec q])%list).
Proof.
  intros Hd Hx. unfold exec_handler. rewrite try_json_eq.
  unfold exec_block. rewrite (env_DB_bound _ _ _ Hd).
  unfold bindM, ret, call. rewrite Hx. reflexivity.
Qed.

Lemma exec_handler_ok (c : Context) (d : D1Database) (q : string) (out : value)
    (log : list db_call) :
  DB (env c) = Some d -> exec d q = Normal out ->
  exec_handler c q log
  = (Normal (c_json (VObj [("count", js_or (opt_get out "count") (VNum 0));
                           ("durationMs", js_or (opt_get out "duration") (VNum 0))])
               200),
     (log ++ [CallExec q])%list).
Proof.
  intros Hd Hx. unfold exec_handler. rewrite try_json_eq.
  unfold exec_block. rewrite (env_DB_bound _ _ _ Hd).
  unfold bindM, ret, call. rewrite Hx. reflexivity.
Qed.

(** Every handler answers, whatever the binding does: with 200, or from
    its [catch] branch with 500. *)
Lemma all_handler_responds (c : Context) (q : PreparedQueryData) (log : list db_call) :
  exists r log', all_handler c q log = (Normal r, log')
    /\ (status r = 200 \/ (status r = 500 /\ error_string_body (body r))).
Proof.
  unfold all_handler. rewrite try_json_eq.
  destruct (all_block c q log) as [[v|err] l]; do 2 eexists; split;
    try reflexivity.
  - left. reflexivity.
  - right. split; [reflexivity|]. eexists. reflexivity.
Qed.

Lemma batch_handler_responds (c : Context) (qs : list PreparedQueryData)
    (log : list db_call) :
  exists r log', batch_handler c qs log = (Normal r, log')
    /\ (status r = 200 \/ (status r = 500 /\ error_string_body (body r))).
Proof.
  unfold batch_handler. rewrite try_json_eq.
  destruct (batch_block c qs log) as [[v|err] l]; do 2 eexists; split;
    try reflexivity.
  - left. reflexivity.
  - right. split; [reflexivity|]. eexists. reflexivity.
Qed.

Lemma exec_handler_responds (c : Context) (q : string) (log : list db_call) :
  exists r log', exec_handler c q log = (Normal r, log')
    /\ (status r = 200 \/ status r = 500).
Proof.
  unfold exec_handler. rewrite try_json_eq.
  destruct (exec_block c q log) as [[v|err] l]; do 2 eexists; split;
    try reflexivity; [left|right]; reflexivity.
Qed.

(* ------------------------------------------------------------------ *)
(** ** Authentication and validation *)

Lemma not_authorized (s : string) (rq : Request) :
  authorization rq <> bearer s -> authorized s rq = false.
Proof.
  unfold authorized, bearer. destruct (authorization rq) as [header|]; [|reflexivity].
  intros H. apply String.eqb_neq. congruence.
Qed.

Lemma is_authorized (s : string) (rq : Request) :
  authorization rq = bearer s -> authorized s rq = true.
Proof. unfold authorized, bearer. intros ->. apply String.eqb_refl. Qed.

Lemma root_not_query (rq : Request) : query_route rq -> ("/" =? path rq) = false.
Proof.
  unfold query_route. intros H.
  destruct ("/" =? path rq) eqn:E; [|reflexivity].
  apply root_not_group in E. congruence.
Qed.

(** An authenticated POST to one of the three routes runs the route's
    validator and handler. *)
Lemma pipeline_post (s : string) (rq : Request) (e : Env) (suffix : string) :
  authorization rq = bearer s -> method rq = "POST" ->
  path rq = "/query/" ++ suffix ->
  pipeline s rq e
  = let c := mkContext rq e in
    if "/query/all/" =? path rq then validated PreparedQuery all_handler c
    else if "/query/exec/" =? path rq then validated ExecQuery exec_handler c
    else if "/query/batch/" =? path rq then validated BatchQuery batch_handler c
    else ret not_found.
Proof.
  intros Ha Hm Hp. unfold pipeline.
  rewrite (is_authorized _ _ Ha), Hm, Hp.
  replace (prefix "/query/" ("/query/" ++ suffix)) with true
    by (destruct suffix; reflexivity).
  reflexivity.
Qed.

(** C4: once the worker is configured, a request to any route under
    [/query/] whose Authorization header is missing, or is anything other
    than [Bearer] followed by the secret (a wrong token, another scheme,
    the bare secret), is answered with 401, and the log of backend calls
    stays empty. *)
Theorem unauthenticated_is_401_without_backend_call (rq : Request) (e : Env)
    (d : D1Database) (s : string) :
  configured e d s -> query_route rq -> authorized s rq = false ->
  exists r, run_M (fetch rq e) = (Normal r, []) /\ status r = 401.
Proof.
  intros Hc Hq Ha. unfold run_M. rewrite (fetch_pipeline _ _ _ _ _ Hc).
  unfold pipeline. rewrite (root_not_query _ Hq), Hq, Ha.
  exists unauthorized. split; reflexivity.
Qed.

Lemma unauthenticated_is_401_without_backend_call_witness :
  (exists r, run_M (fetch (post "/query/exec/" (bearer "fedcba9876543210") insert_one)
                      stub_env) = (Normal r, [])
             /\ status r = 401)
  /\ (exists r, run_M (fetch (post "/query/all/" None insert_one) stub_env)
                = (Normal r, [])
                /\ status r = 401).
Proof.
  split.
  - apply (unauthenticated_is_401_without_backend_call _ stub_env stub_db stub_secret).
    + repeat split. vm_compute. discriminate.
    + reflexivity.
    + reflexivity.
  - apply (unauthenticated_is_401_without_backend_call _ stub_env stub_db stub_secret).
    + repeat split. vm_compute. discriminate.
    + reflexivity.
    + reflexivity.
Defined.

(** C3 (the claim as stated fails): an empty batch sent without an
    Authorization header is answered with 401, not 400. *)
Lemma empty_batch_unauthenticated_is_401 :
  exists r, run_M (fetch (post "/query/batch/" None empty_batch) stub_env)
            = (Normal r, [])
            /\ status r = 401 /\ status r <> 400.
Proof. exists unauthorized. repeat split. discriminate. Qed.

(** C3 (amended): the authenticator runs before the validator.  A POST
    to [/query/batch/] whose [batch] is the empty array is answered with
    400 when the request carries the bearer secret and with 401 when it
    does not; in both cases no backend call is made. *)
Theorem empty_batch_is_400_once_authenticated (rq : Request) (e : Env)
    (d : D1Database) (s : string) (payload : value) :
  configured e d s -> method rq = "POST" -> path rq = "/query/batch/" ->
  json rq = Some payload -> get payload "batch" = VArr [] ->
  exists r, run_M (fetch rq e) = (Normal r, [])
            /\ status r = if authorized s rq then 400 else 401.
Proof.
  intros Hc Hm Hp Hj Hb. unfold run_M. rewrite (fetch_pipeline _ _ _ _ _ Hc).
  unfold pipeline. rewrite Hm, Hp. cbn [String.eqb Ascii.eqb Bool.eqb prefix].
  replace (prefix "/query/" "/query/batch/") with true by reflexivity.
  cbv beta iota zeta.
  destruct (authorized s rq).
  - replace ("POST" =? "POST") with true by reflexivity.
    replace ("/query/all/" =? "/query/batch/") with false by reflexivity.
    replace ("/query/exec/" =? "/query/batch/") with false by reflexivity.
    replace ("/query/batch/" =? "/query/batch/") with true by reflexivity.
    cbv beta iota.
    unfold validated, zValidator. cbn [req]. rewrite Hj.
    unfold BatchQuery. destruct payload as [| | | | | |fields|]; try discriminate.
    rewrite Hb. exists invalid. split; reflexivity.
  - exists unauthorized. split; reflexivity.
Qed.

Lemma empty_batch_is_400_once_authenticated_witness :
  exists r, run_M (fetch (post "/query/batch/" (bearer stub_secret) empty_batch)
                     stub_env) = (Normal r, [])
            /\ status r = 400.
Proof.
  apply (empty_batch_is_400_once_authenticated
           (post "/query/batch/" (bearer stub_secret) empty_batch)
           stub_env stub_db stub_secret empty_batch); try reflexivity.
  repeat split. vm_compute. discriminate.
Defined.

(* ------------------------------------------------------------------ *)
(** ** Error responses *)

(** C1: on [/query/exec/] the [catch] branch answers
    [c.json({ error: err }, 500)] with the caught [Error] object itself.
    When the binding rejects the misspelled statement, the [error] field
    of the body is that object and not a string, so the body is not of
    the form [{ error: string }]; the same failure on [/query/all/] is
    reported as a string. *)
Theorem exec_error_is_not_a_string :
  run_M (fetch (post "/query/exec/" (bearer stub_secret) misspelled) stub_env)
    = (Normal (c_json (VObj [("error", VError syntax_error)]) 500),
       [CallExec "SELEC 1"])
  /\ is_string (get (VObj [("error", VError syntax_error)]) "error") = false
  /\ ~ error_string_body (JsonBody (VObj [("error", VError syntax_error)]))
  /\ run_M (fetch (post "/query/all/" (bearer stub_secret) misspelled) stub_env)
     = (Normal (c_json (VObj [("error",
                               VStr "failed to run query: Error: D1_EXEC_ERROR: syntax error")])
                  500),
        [CallPrepare "SELEC 1"; CallAll]).
Proof.
  repeat split; try (vm_compute; reflexivity).
  intros [msg H]. discriminate H.
Qed.


Lemma validated_responds {A} (s : schema A) (h : Context -> A -> M Response)
    (c : Context) (log : list db_call) (P : Response -> Prop) :
  P invalid ->
  (forall data, exists r log', h c data log = (Normal r, log') /\ P r) ->
  exists r log', validated s h c log = (Normal r, log') /\ P r.
Proof.
  intros Hinv Hh. unfold validated.
  destruct (zValidator s c) as [rejected|data] eqn:Hv.
  - unfold zValidator in Hv. exists rejected, log. split; [reflexivity|].
    destruct (json (req c)) as [v|]; [destruct (s v)|]; try discriminate;
      injection Hv as <-; exact Hinv.
  - apply Hh.
Qed.







(* ------------------------------------------------------------------ *)
(** ** The exec response *)






(* ------------------------------------------------------------------ *)
(** ** The batch response *)

(** The first loop pushes the statement of each query, in order, behind
    what was already pushed, and logs the calls in the same order. *)
Lemma prepare_statements_in_order (d : D1Database) (qs : list PreparedQueryData)
    (sts : list (D1PreparedStatement d)) :
  Forall2 (fun q st => statement_of d q = Normal st) qs sts ->
  forall pushed log,
    prepare_statements d qs pushed log
    = (Normal (pushed ++ sts)%list, (log ++ flat_map calls_of qs)%list).
Proof.
  induction 1 as [|q st qs sts Hq _ IH]; intros pushed log; simpl.
  - rewrite !app_nil_r. reflexivity.
  - unfold statement_of in Hq. unfold calls_of, bindM, call, ret.
    destruct (prepare d (queryText q)) as [stmt|err]; [|discriminate].
    destruct (params q) as [ps|].
    + rewrite Hq. rewrite IH. rewrite <- !app_assoc. reflexivity.
    + injection Hq as ->. rewrite IH. rewrite <- !app_assoc. reflexivity.
Qed.

Lemma query_response_object (r : value) (log : list db_call) :
  nullish r = false -> query_response r log = (Normal (query_shape r), log).
Proof. destruct r; try discriminate; reflexivity. Qed.

(** The second loop pushes one response per result, in order. *)
Lemma collect_results_in_order (rs : list value) :
  Forall (fun r => nullish r = false) rs ->
  forall pushed log,
    collect_results rs pushed log
    = (Normal (pushed ++ map query_shape rs)%list, log).
Proof.
  induction 1 as [|r rs Hr _ IH]; intros pushed log; simpl.
  - rewrite app_nil_r. reflexivity.
  - unfold bindM. rewrite (query_response_object r log Hr).
    rewrite IH. rewrite <- app_assoc. reflexivity.
Qed.

Lemma batch_handler_ok (c : Context) (d : D1Database)
    (qs : list PreparedQueryData) (sts : list (D1PreparedStatement d))
    (rs : list value) (log : list db_call) :
  DB (env c) = Some d ->
  Forall2 (fun q st => statement_of d q = Normal st) qs sts ->
  batch d sts = Normal rs ->
  Forall (fun r => nullish r = false) rs ->
  batch_handler c qs log
  = (Normal (c_json (VArr (map query_shape rs)) 200),
     (log ++ flat_map calls_of qs ++ [CallBatch (List.length qs)])%list).
Proof.
  intros Hd Hst Hb Hrs. unfold batch_handler. rewrite try_json_eq.
  unfold batch_block. rewrite (env_DB_bound _ _ _ Hd).
  unfold bindM at 1. unfold ret at 1.
  unfold bindM at 1. rewrite (prepare_statements_in_order d qs sts Hst).
  cbn [List.app]. unfold bindM, call. rewrite Hb.
  rewrite (collect_results_in_order rs Hrs). cbn [List.app].
  rewrite (Forall2_length Hst), app_assoc. reflexivity.
Qed.

Lemma query_response_nullish (r : value) (log : list db_call) :
  nullish r = true ->
  query_response r log = (Throw (type_error_reading "results"), log).
Proof. destruct r; try discriminate; reflexivity. Qed.

(** A null or undefined result stops the second loop with a TypeError. *)
Lemma collect_results_nullish (rs : list value) :
  Exists (fun r => nullish r = true) rs ->
  forall pushed log,
    collect_results rs pushed log = (Throw (type_error_reading "results"), log).
Proof.
  induction rs as [|r rs IH]; intros H pushed log; [inversion H|].
  simpl. unfold bindM.
  destruct (nullish r) eqn:Hr.
  - rewrite (query_response_nullish r log Hr). reflexivity.
  - rewrite (query_response_object r log Hr). apply IH.
    inversion H as [? ? Hx|? ? Hx]; subst; [congruence|exact Hx].
Qed.

Lemma batch_handler_nullish (c : Context) (d : D1Database)
    (qs : list PreparedQueryData) (sts : list (D1PreparedStatement d))
    (rs : list value) (log : list db_call) :
  DB (env c) = Some d ->
  Forall2 (fun q st => statement_of d q = Normal st) qs sts ->
  batch d sts = Normal rs ->
  Exists (fun r => nullish r = true) rs ->
  batch_handler c qs log
  = (Normal (failed "failed to batch query: " (type_error_reading "results")),
     (log ++ flat_map calls_of qs ++ [CallBatch (List.length qs)])%list).
Proof.
  intros Hd Hst Hb Hrs. unfold batch_handler. rewrite try_json_eq.
  unfold batch_block. rewrite (env_DB_bound _ _ _ Hd).
  unfold bindM at 1. unfold ret at 1.
  unfold bindM at 1. rewrite (prepare_statements_in_order d qs sts Hst).
  cbn [List.app]. unfold bindM, call. rewrite Hb.
  rewrite (collect_results_nullish rs Hrs).
  rewrite (Forall2_length Hst), app_assoc. reflexivity.
Qed.

Lemma Forall2_nth_error {A B} (P : A -> B -> Prop) (l : list A) (l' : list B) :
  Forall2 P l l' ->
  forall i a, nth_error l i = Some a ->
              exists b, nth_error l' i = Some b /\ P a b.
Proof.
  induction 1 as [|a0 b0 l l' H0 _ IH]; intros [|i] a Ha; simpl in *;
    try discriminate.
  - injection Ha as <-. exists b0. split; [reflexivity|exact H0].
  - apply IH. exact Ha.
Qed.

(** C7 (the claim as stated fails): the response has as many items as
    the array the binding resolved to, whatever the number of queries.
    With a binding whose [batch] call succeeds with the empty array, a
    batch of two queries is answered with 200 and no item at all. *)
Lemma batch_response_can_be_shorter :
  BatchQuery two_queries
    = Some [mkPreparedQuery "SELECT 1" None;
            mkPreparedQuery "SELECT ?" (Some [VNum 2])]
  /\ batch loose_db [("SELECT 1", []); ("SELECT ?", [VNum 2])] = Normal []
  /\ run_M (fetch (post "/query/batch/" (bearer stub_secret) two_queries) loose_env)
     = (Normal (c_json (VArr []) 200),
        [CallPrepare "SELECT 1"; CallPrepare "SELECT ?"; CallBind [VNum 2];
         CallBatch 2])
  /\ List.length (@nil value) <> 2%nat.
Proof. repeat split. discriminate. Qed.

(** C7 (amended): take an authenticated, valid POST to [/query/batch/]
    with N queries for which every statement is prepared and bound and
    the batch call resolves to an array of results.  The statements
    reach the binding in the order of the queries (statement i is built
    from query i, and the calls are logged in that order).  When every
    result is an object, the response is 200 and an array with exactly
    as many items as the binding returned, N when the binding returns
    one result per statement, and item i is built from result i of the
    binding.  When a result is null or undefined, the response is 500
    with a body of the form [{ error: string }]. *)
Theorem batch_results_follow_submission_order (rq : Request) (e : Env)
    (d : D1Database) (s : string) (payload : value)
    (qs : list PreparedQueryData) (sts : list (D1PreparedStatement d))
    (rs : list value) :
  configured e d s -> authorization rq = bearer s ->
  method rq = "POST" -> path rq = "/query/batch/" ->
  json rq = Some payload -> BatchQuery payload = Some qs ->
  Forall2 (fun q st => statement_of d q = Normal st) qs sts ->
  batch d sts = Normal rs ->
  (forall i q, nth_error qs i = Some q ->
     exists st, nth_error sts i = Some st /\ statement_of d q = Normal st)
  /\ snd (run_M (fetch rq e))
     = (flat_map calls_of qs ++ [CallBatch (List.length qs)])%list
  /\ (Forall (fun r => nullish r = false) rs ->
      exists items,
        fst (run_M (fetch rq e)) = Normal (c_json (VArr items) 200)
        /\ List.length items = List.length rs
        /\ (List.length rs = List.length qs ->
            List.length items = List.length qs)
        /\ forall i, nth_error items i = option_map query_shape (nth_error rs i))
  /\ (Exists (fun r => nullish r = true) rs ->
      exists r, fst (run_M (fetch rq e)) = Normal r
                /\ status r = 500 /\ error_string_body (body r)).
Proof.
  intros Hc Ha Hm Hp Hj Hq Hst Hb. unfold run_M.
  rewrite (fetch_pipeline _ _ _ _ _ Hc).
  rewrite (pipeline_post s rq e "batch/" Ha Hm Hp). rewrite Hp. cbv zeta.
  replace ("/query/all/" =? "/query/batch/") with false by reflexivity.
  replace ("/query/exec/" =? "/query/batch/") with false by reflexivity.
  replace ("/query/batch/" =? "/query/batch/") with true by reflexivity.
  cbv iota. unfold validated, zValidator. cbn [req]. rewrite Hj, Hq.
  destruct Hc as (Hd & _ & _).
  split; [exact (Forall2_nth_error _ _ _ Hst)|].
  destruct (forallb (fun r => negb (nullish r)) rs) eqn:Hall.
  - assert (Hrs : Forall (fun r => nullish r = false) rs).
    { apply Forall_forall. intros r Hin.
      rewrite forallb_forall in Hall. apply Hall in Hin.
      destruct (nullish r); [discriminate|reflexivity]. }
    rewrite (batch_handler_ok (mkContext rq e) d qs sts rs [] Hd Hst Hb Hrs).
    split; [reflexivity|]. split.
    + intros _. exists (map query_shape rs). split; [reflexivity|].
      split; [apply length_map|].
      split; [intros Hlen; rewrite length_map; exact Hlen|].
      intros i. apply nth_error_map.
    + intros Hex. apply Exists_exists in Hex. destruct Hex as (r & Hin & Hr).
      rewrite Forall_forall in Hrs. rewrite (Hrs r Hin) in Hr. discriminate.
  - assert (Hex : Exists (fun r => nullish r = true) rs).
    { clear - Hall. induction rs as [|r rs IH]; [discriminate|].
      simpl in Hall. destruct (nullish r) eqn:Hr.
      - left. exact Hr.
      - right. apply IH. exact Hall. }
    rewrite (batch_handler_nullish (mkContext rq e) d qs sts rs [] Hd Hst Hb Hex).
    split; [reflexivity|]. split.
    + intros Hrs. apply Exists_exists in Hex. destruct Hex as (r & Hin & Hr).
      rewrite Forall_forall in Hrs. rewrite (Hrs r Hin) in Hr. discriminate.
    + intros _. eexists. split; [reflexivity|]. split; [reflexivity|].
      eexists. reflexivity.
Qed.

Lemma batch_results_follow_submission_order_witness :
  exists items,
    fst (run_M (fetch (post "/query/batch/" (bearer stub_secret) two_queries)
                  stub_env))
      = Normal (c_json (VArr items) 200)
    /\ snd (run_M (fetch (post "/query/batch/" (bearer stub_secret) two_queries)
                     stub_env))
       = [CallPrepare "SELECT 1"; CallPrepare "SELECT ?"; CallBind [VNum 2];
          CallBatch 2]
    /\ List.length items = 2%nat
    /\ nth_error items 0 = Some (query_shape (sentinel ("SELECT 1", [])))
    /\ nth_error items 1 = Some (query_shape (sentinel ("SELECT ?", [VNum 2]))).
Proof.
  destruct (batch_results_follow_submission_order
              (post "/query/batch/" (bearer stub_secret) two_queries)
              stub_env stub_db stub_secret two_queries
              [mkPreparedQuery "SELECT 1" None;
               mkPreparedQuery "SELECT ?" (Some [VNum 2])]
              [("SELECT 1", []); ("SELECT ?", [VNum 2])]
              [sentinel ("SELECT 1", []); sentinel ("SELECT ?", [VNum 2])])
    as (_ & Hlog & Hok & _); try reflexivity.
  - repeat split. vm_compute. discriminate.
  - repeat constructor.
  - destruct Hok as (items & Hrun & Hlen & _ & Hnth); [repeat constructor|].
    exists items. split; [exact Hrun|]. split; [exact Hlog|].
    split; [exact Hlen|]. split; [exact (Hnth 0%nat)|exact (Hnth 1%nat)].
Defined.

(* ------------------------------------------------------------------ *)
(** ** Trimming *)

Lemma trim_start_suffix (l : list ascii) :
  exists pre, l = (pre ++ trim_start l)%list /\ forallb is_space pre = true.
Proof.
  induction l as [|c l (pre & IH & Hpre)]; simpl.
  - exists []. split; reflexivity.
  - destruct (is_space c) eqn:Hc.
    + exists (c :: pre). simpl. rewrite Hc, Hpre. split; [f_equal; exact IH|reflexivity].
    + exists []. split; reflexivity.
Qed.

Lemma trim_start_head (l : list ascii) :
  match trim_start l with c :: _ => is_space c = false | [] => True end.
Proof.
  induction l as [|c l IH]; simpl; [exact I|].
  destruct (is_space c) eqn:Hc; [exact IH|exact Hc].
Qed.

Lemma trim_start_fixed (l : list ascii) :
  match l with c :: _ => is_space c = false | [] => True end ->
  trim_start l = l.
Proof. destruct l as [|c l]; simpl; [reflexivity|]. intros ->. reflexivity. Qed.

Lemma trim_start_length (l : list ascii) :
  (List.length (trim_start l) <= List.length l)%nat.
Proof.
  destruct (trim_start_suffix l) as (pre & H & _).
  rewrite H at 2. rewrite length_app. lia.
Qed.

Lemma length_string_of_list (l : list ascii) :
  String.length (string_of_list_ascii l) = List.length l.
Proof. induction l as [|c l IH]; simpl; [reflexivity|]. rewrite IH. reflexivity. Qed.

Lemma length_list_of_string (s : string) :
  List.length (list_ascii_of_string s) = String.length s.
Proof. induction s as [|c s IH]; simpl; [reflexivity|]. rewrite IH. reflexivity. Qed.

Lemma trim_length (s : string) : (js_length (trim s) <= js_length s)%N.
Proof.
  unfold js_length, trim. rewrite length_string_of_list, length_rev.
  pose proof (trim_start_length (rev (trim_start (list_ascii_of_string s)))) as H1.
  rewrite length_rev in H1.
  pose proof (trim_start_length (list_ascii_of_string s)) as H2.
  rewrite length_list_of_string in H2. lia.
Qed.

(** The characters of a trimmed string, and what is known of its two ends. *)
Lemma trim_ends (s : string) :
  let t := list_ascii_of_string (trim s) in
  match t with c :: _ => is_space c = false | [] => True end
  /\ match rev t with c :: _ => is_space c = false | [] => True end.
Proof.
  unfold trim. cbv zeta. rewrite list_ascii_of_string_of_list_ascii.
  set (a := trim_start (list_ascii_of_string s)).
  set (b := trim_start (rev a)).
  split.
  - destruct (trim_start_suffix (rev a)) as (pre & H & _). fold b in H.
    assert (Ha : a = (rev b ++ rev pre)%list).
    { rewrite <- rev_app_distr, <- H, rev_involutive. reflexivity. }
    pose proof (trim_start_head (list_ascii_of_string s)) as Hh. fold a in Hh.
    destruct (rev b) as [|c r]; [exact I|]. rewrite Ha in Hh. exact Hh.
  - rewrite rev_involutive. apply trim_start_head.
Qed.

Lemma trim_idempotent (s : string) : trim (trim s) = trim s.
Proof.
  destruct (trim_ends s) as [Hl Hr].
  unfold trim at 1. 
  rewrite (trim_start_fixed _ Hl), (trim_start_fixed _ Hr), rev_involutive.
  apply string_of_list_ascii_of_string.
Qed.

Lemma trim_no_outer_space (s : string) :
  leading_space (trim s) = false /\ trailing_space (trim s) = false.
Proof.
  destruct (trim_ends s) as [Hl Hr]. unfold leading_space, trailing_space.
  split.
  - destruct (list_ascii_of_string (trim s)); [reflexivity|exact Hl].
  - destruct (rev (list_ascii_of_string (trim s))); [reflexivity|exact Hr].
Qed.

(* ------------------------------------------------------------------ *)
(** ** What the schemas accept *)

Lemma z_string_query_iff (hi : N) (v : value) (out : string) :
  z_string [Min 1; Max hi; Trim] v = Some out <->
  exists s, v = VStr s /\ out = trim s /\ (1 <= js_length s <= hi)%N.
Proof.
  split; [apply z_string_query|].
  intros (s & -> & -> & H). apply z_string_query_accepts. exact H.
Qed.

Lemma PreparedQuery_queryText (v : value) (q : PreparedQueryData) :
  PreparedQuery v = Some q ->
  exists s, get v "queryText" = VStr s /\ (1 <= js_length s <= 10000)%N
            /\ queryText q = trim s.
Proof.
  unfold PreparedQuery. destruct v as [| | | | | |fields|]; try discriminate.
  destruct (z_string _ _) as [t|] eqn:Ht; [|discriminate].
  apply z_string_query in Ht. destruct Ht as (s & Hs & -> & Hlen).
  destruct (z_optional _ _) as [p|]; [|discriminate].
  intros [= <-]. exists s. repeat split; try assumption; apply Hlen.
Qed.

Lemma ExecQuery_queryText (v : value) (q : string) :
  ExecQuery v = Some q ->
  exists s, get v "queryText" = VStr s /\ (1 <= js_length s <= 1000000)%N
            /\ q = trim s.
Proof.
  unfold ExecQuery. destruct v as [| | | | | |fields|]; try discriminate.
  intros H. apply z_string_query in H. destruct H as (s & Hs & -> & Hlen).
  exists s. repeat split; try assumption; apply Hlen.
Qed.

(** X1: the [/query/all/] validator accepts exactly the objects whose
    [queryText] is a string of 1 to 10000 characters, counted before
    trimming, and whose [params] is absent or an array; the handler
    receives the trimmed text and the array as it is. *)
Theorem PreparedQuery_accepts_iff (v : value) (q : PreparedQueryData) :
  PreparedQuery v = Some q <->
  exists fields s,
    v = VObj fields
    /\ get v "queryText" = VStr s /\ (1 <= js_length s <= 10000)%N
    /\ queryText q = trim s
    /\ ((get v "params" = VUndefined /\ params q = None)
        \/ exists ps, get v "params" = VArr ps /\ params q = Some ps).
Proof.
  split.
  - unfold PreparedQuery. destruct v as [| | | | | |fields|]; try discriminate.
    destruct (z_string _ _) as [t|] eqn:Ht; [|discriminate].
    apply z_string_query in Ht. destruct Ht as (s & Hs & -> & Hlen).
    intros H. exists fields, s. split; [reflexivity|]. split; [exact Hs|].
    split; [exact Hlen|].
    destruct (get (VObj fields) "params") as [| | | | |xs| |];
      simpl in H; try discriminate.
    + injection H as <-. split; [reflexivity|]. left. split; reflexivity.
    + rewrite parse_all_any in H. simpl in H. injection H as <-.
      split; [reflexivity|]. right. exists xs. split; reflexivity.
  - intros (fields & s & -> & Hs & Hlen & Hq & Hp). unfold PreparedQuery.
    rewrite Hs, (z_string_query_accepts 10000 s Hlen).
    destruct q as [t p]. simpl in *. subst t.
    destruct Hp as [[-> ->]|(ps & -> & ->)]; simpl; [reflexivity|].
    rewrite parse_all_any. reflexivity.
Qed.

(** X2: the [/query/exec/] validator accepts exactly the objects whose
    [queryText] is a string of 1 to 1000000 characters, counted before
    trimming; the handler receives the trimmed text. *)
Theorem ExecQuery_accepts_iff (v : value) (q : string) :
  ExecQuery v = Some q <->
  exists fields s,
    v = VObj fields
    /\ get v "queryText" = VStr s /\ (1 <= js_length s <= 1000000)%N
    /\ q = trim s.
Proof.
  split.
  - unfold ExecQuery. destruct v as [| | | | | |fields|]; try discriminate.
    intros H. apply z_string_query in H. destruct H as (s & Hs & -> & Hlen).
    exists fields, s. repeat split; try assumption; apply Hlen.
  - intros (fields & s & -> & Hs & Hlen & ->). unfold ExecQuery.
    rewrite Hs. apply z_string_query_accepts. exact Hlen.
Qed.

Lemma Forall2_parse_all {A} (s : schema A) (xs : list value) (l : list A) :
  Forall2 (fun x a => s x = Some a) xs l -> parse_all s xs = Some l.
Proof.
  induction 1 as [|x a xs l Hx _ IH]; simpl; [reflexivity|].
  rewrite Hx, IH. reflexivity.
Qed.

(** X3: the [/query/batch/] validator accepts exactly the objects whose
    [batch] is a non-empty array of items that the [/query/all/] schema
    accepts; the validated queries are the items, in order, and one
    rejected item rejects the whole batch. *)
Theorem BatchQuery_accepts_iff (v : value) (qs : list PreparedQueryData) :
  BatchQuery v = Some qs <->
  exists fields items,
    v = VObj fields /\ get v "batch" = VArr items /\ items <> []
    /\ Forall2 (fun item q => PreparedQuery item = Some q) items qs.
Proof.
  split.
  - unfold BatchQuery, z_nonempty, z_array.
    destruct v as [| | | | | |fields|]; try discriminate.
    destruct (get (VObj fields) "batch") as [| | | | |items| |]; try discriminate.
    destruct (parse_all PreparedQuery items) as [[|q0 l]|] eqn:Hall; try discriminate.
    intros [= <-]. exists fields, items. split; [reflexivity|]. split; [reflexivity|].
    apply parse_all_Forall2 in Hall. split; [|exact Hall].
    intros ->. inversion Hall.
  - intros (fields & items & -> & Hb & Hne & Hall).
    unfold BatchQuery, z_nonempty, z_array. rewrite Hb.
    rewrite (Forall2_parse_all _ _ _ Hall).
    destruct Hall; [contradiction|reflexivity].
Qed.

(** X4: the text a handler receives is never longer than the route's
    limit (10000 on [/all/] and [/batch/], 1000000 on [/exec/]) and has
    no white space at either end. *)
Theorem delivered_queryText_is_trimmed_and_bounded (v : value) :
  (forall q, PreparedQuery v = Some q ->
     (js_length (queryText q) <= 10000)%N
     /\ leading_space (queryText q) = false
     /\ trailing_space (queryText q) = false)
  /\ (forall q, ExecQuery v = Some q ->
        (js_length q <= 1000000)%N
        /\ leading_space q = false /\ trailing_space q = false).
Proof.
  split; intros q H.
  - apply PreparedQuery_queryText in H. destruct H as (s & _ & Hlen & ->).
    pose proof (trim_length s). pose proof (trim_no_outer_space s) as [? ?].
    repeat split; try assumption. lia.
  - apply ExecQuery_queryText in H. destruct H as (s & _ & Hlen & ->).
    pose proof (trim_length s). pose proof (trim_no_outer_space s) as [? ?].
    repeat split; try assumption. lia.
Qed.

Lemma delivered_queryText_is_trimmed_and_bounded_witness :
  (js_length "SELECT 1" <= 10000)%N
  /\ leading_space "SELECT 1" = false /\ trailing_space "SELECT 1" = false.
Proof.
  apply (proj1 (delivered_queryText_is_trimmed_and_bounded
                  (VObj [("queryText", VStr "  SELECT 1 ")]))
           (mkPreparedQuery "SELECT 1" None)).
  reflexivity.
Defined.

(** X5: validation is stable: a validated query with a non-empty text,
    sent again as a body, is accepted and validates to itself. *)
Theorem validated_query_validates_again (v : value) (q : PreparedQueryData) :
  PreparedQuery v = Some q -> queryText q <> EmptyString ->
  PreparedQuery (encode_query q) = Some q.
Proof.
  intros H Hne. apply PreparedQuery_queryText in H.
  destruct H as (s & _ & Hlen & Hq).
  assert (Hbound : (1 <= js_length (queryText q) <= 10000)%N).
  { pose proof (trim_length s). rewrite <- Hq in *. split; [|lia].
    unfold js_length. destruct (queryText q); [contradiction|simpl; lia]. }
  assert (Hfix : trim (queryText q) = queryText q).
  { rewrite Hq. apply trim_idempotent. }
  destruct q as [t p]. cbn [queryText params] in *.
  unfold PreparedQuery, encode_query. cbn [queryText params].
  replace (get _ "queryText") with (VStr t) by reflexivity.
  rewrite (z_string_query_accepts 10000 t Hbound), Hfix.
  destruct p as [ps|]; [|reflexivity].
  replace (get _ "params") with (VArr ps) by reflexivity.
  simpl. rewrite parse_all_any. reflexivity.
Qed.

Lemma validated_query_validates_again_witness :
  PreparedQuery (encode_query (mkPreparedQuery "SELECT ?" (Some [VNum 2])))
  = Some (mkPreparedQuery "SELECT ?" (Some [VNum 2])).
Proof.
  apply (validated_query_validates_again
           (VObj [("params", VArr [VNum 2]); ("queryText", VStr " SELECT ? ")])).
  - reflexivity.
  - discriminate.
Defined.

(* ------------------------------------------------------------------ *)
(** ** Success and failure of the handlers *)

(** X6: when the statement is prepared (and bound, if [params] was
    given) and [all] resolves to a result object, [/query/all/] answers
    200 with the [results] and [meta] of that result; [bind] is called
    exactly when the query carries [params], between [prepare] and
    [all]. *)
Theorem all_handler_success (c : Context) (d : D1Database)
    (q : PreparedQueryData) (st : D1PreparedStatement d) (result : value)
    (log : list db_call) :
  DB (env c) = Some d -> statement_of d q = Normal st ->
  all d st = Normal result -> nullish result = false ->
  all_handler c q log
  = (Normal (c_json (VObj [("results", get result "results");
                           ("meta", get result "meta")]) 200),
     (log ++ calls_of q ++ [CallAll])%list).
Proof.
  intros Hd Hst Hall Hres. unfold all_handler. rewrite try_json_eq.
  unfold all_block. rewrite (env_DB_bound _ _ _ Hd).
  unfold statement_of in Hst. unfold calls_of, bindM, call, ret, lift.
  destruct (prepare d (queryText q)) as [stmt|err]; [|discriminate].
  destruct (params q) as [ps|].
  - rewrite Hst, Hall. destruct result; try discriminate;
      cbn -[get]; rewrite <- !app_assoc; reflexivity.
  - injection Hst as ->. rewrite Hall. destruct result; try discriminate;
      cbn -[get]; rewrite <- !app_assoc; reflexivity.
Qed.

Lemma all_handler_success_witness :
  all_handler (mkContext (post "/query/all/" (bearer stub_secret) VNull) stub_env)
    (mkPreparedQuery "SELECT ?" (Some [VNum 2])) []
  = (Normal (c_json (VObj [("results", get (sentinel ("SELECT ?", [VNum 2])) "results");
                           ("meta", get (sentinel ("SELECT ?", [VNum 2])) "meta")])
               200),
     [CallPrepare "SELECT ?"; CallBind [VNum 2]; CallAll]).
Proof.
  apply (all_handler_success _ stub_db (mkPreparedQuery "SELECT ?" (Some [VNum 2]))
           ("SELECT ?", [VNum 2]) (sentinel ("SELECT ?", [VNum 2])) []);
    reflexivity.
Defined.

(** X7: a throw of [prepare], [bind] or [all] on [/query/all/] is
    answered with 500 and the message ["failed to run query: "] followed
    by the error; when [prepare] or [bind] throws, [all] is never
    called. *)
Theorem all_handler_failure (c : Context) (d : D1Database)
    (q : PreparedQueryData) (err : exn) (log : list db_call) :
  DB (env c) = Some d ->
  (statement_of d q = Throw err ->
     exists calls,
       all_handler c q log
       = (Normal (failed "failed to run query: " err), (log ++ calls)%list)
       /\ ~ In CallAll calls)
  /\ (forall st, statement_of d q = Normal st -> all d st = Throw err ->
        all_handler c q log
        = (Normal (failed "failed to run query: " err),
           (log ++ calls_of q ++ [CallAll])%list)).
Proof.
  intros Hd. unfold all_handler. rewrite try_json_eq.
  unfold all_block. rewrite (env_DB_bound _ _ _ Hd).
  unfold statement_of, calls_of, bindM, call, ret, lift.
  destruct (prepare d (queryText q)) as [stmt|e0].
  - destruct (params q) as [ps|].
    + split.
      * intros ->. exists [CallPrepare (queryText q); CallBind ps]. split.
        -- rewrite <- app_assoc. reflexivity.
        -- simpl. intros [H|[H|[]]]; discriminate.
      * intros st -> ->. rewrite <- !app_assoc. reflexivity.
    + split; [discriminate|].
      intros st [= ->] ->. rewrite <- !app_assoc. reflexivity.
  - split; [|discriminate]. intros [= ->].
    exists [CallPrepare (queryText q)]. split; [reflexivity|].
    simpl. intros [H|[]]; discriminate.
Qed.

Lemma all_handler_failure_witness :
  (exists calls,
     all_handler (mkContext (post "/query/all/" None VNull) strict_env)
       (mkPreparedQuery "SELEC 1" None) []
     = (Normal (failed "failed to run query: " syntax_error), calls)
     /\ ~ In CallAll calls)
  /\ all_handler (mkContext (post "/query/all/" None VNull) stub_env)
       (mkPreparedQuery "SELEC 1" None) []
     = (Normal (failed "failed to run query: " syntax_error),
        [CallPrepare "SELEC 1"; CallAll]).
Proof.
  split.
  - apply (proj1 (all_handler_failure
                    (mkContext (post "/query/all/" None VNull) strict_env)
                    strict_db (mkPreparedQuery "SELEC 1" None) syntax_error []
                    eq_refl)).
    reflexivity.
  - apply (proj2 (all_handler_failure
                    (mkContext (post "/query/all/" None VNull) stub_env)
                    stub_db (mkPreparedQuery "SELEC 1" None) syntax_error []
                    eq_refl) ("SELEC 1", [])); reflexivity.
Defined.

(** X8: [/query/exec/] makes exactly one backend call, [exec] on the
    validated text, whatever the binding does with it, and answers 200 or
    500. *)
Theorem exec_handler_makes_one_call (c : Context) (d : D1Database) (q : string)
    (log : list db_call) :
  DB (env c) = Some d ->
  exists r, exec_handler c q log = (Normal r, (log ++ [CallExec q])%list)
            /\ (status r = 200 \/ status r = 500).
Proof.
  intros Hd. destruct (exec d q) as [out|err] eqn:Hx.
  - rewrite (exec_handler_ok c d q out log Hd Hx). eexists. split; [reflexivity|].
    left. reflexivity.
  - rewrite (exec_handler_catch c d q err log Hd Hx). eexists. split; [reflexivity|].
    right. reflexivity.
Qed.

Lemma exec_handler_makes_one_call_witness :
  exists r,
    exec_handler (mkContext (post "/query/exec/" None VNull) stub_env) "SELEC 1" []
    = (Normal r, [CallExec "SELEC 1"])
    /\ (status r = 200 \/ status r = 500).
Proof.
  apply (exec_handler_makes_one_call
           (mkContext (post "/query/exec/" None VNull) stub_env) stub_db "SELEC 1" []).
  reflexivity.
Defined.

Lemma calls_of_no_batch (q : PreparedQueryData) (n : nat) :
  ~ In (CallBatch n) (calls_of q).
Proof.
  unfold calls_of. destruct (params q); simpl; intros H;
    repeat (destruct H as [H|H]; [discriminate|]); exact H.
Qed.

Lemma prepare_statements_stops (d : D1Database) (good : list PreparedQueryData)
    (sts : list (D1PreparedStatement d)) (bad : PreparedQueryData)
    (rest : list PreparedQueryData) (err : exn) :
  Forall2 (fun q st => statement_of d q = Normal st) good sts ->
  statement_of d bad = Throw err ->
  forall pushed log,
    exists calls,
      prepare_statements d (good ++ bad :: rest) pushed log
      = (Throw err, (log ++ flat_map calls_of good ++ calls)%list)
      /\ incl calls (calls_of bad).
Proof.
  intros Hgood Hbad.
  induction Hgood as [|q st good sts Hq _ IH]; intros pushed log.
  - cbn [List.app flat_map prepare_statements].
    unfold statement_of in Hbad. unfold calls_of, bindM, call, ret.
    destruct (prepare d (queryText bad)) as [stmt|e0].
    + destruct (params bad) as [ps|]; [|discriminate]. rewrite Hbad.
      exists [CallPrepare (queryText bad); CallBind ps]. split.
      * rewrite <- app_assoc. reflexivity.
      * apply incl_refl.
    + injection Hbad as ->. exists [CallPrepare (queryText bad)]. split.
      * reflexivity.
      * destruct (params bad); intros k [<-|[]]; left; reflexivity.
  - cbn [List.app flat_map prepare_statements].
    unfold statement_of in Hq. unfold bindM at 1. unfold call at 1.
    destruct (prepare d (queryText q)) as [stmt|e0] eqn:Hp; [|discriminate].
    unfold bindM at 1.
    destruct (params q) as [ps|] eqn:Hps.
    + unfold bindM, call, ret. rewrite Hq. fold (@bindM).
      destruct (IH (pushed ++ [st])%list
                   ((log ++ [CallPrepare (queryText q)]) ++ [CallBind ps])%list)
        as (calls & Heq & Hincl).
      exists calls. split; [|exact Hincl].
      unfold bindM in Heq. rewrite Heq. unfold calls_of. rewrite Hps.
      rewrite <- !app_assoc. reflexivity.
    + unfold ret. injection Hq as ->.
      destruct (IH (pushed ++ [st])%list (log ++ [CallPrepare (queryText q)])%list)
        as (calls & Heq & Hincl).
      exists calls. split; [|exact Hincl].
      rewrite Heq. unfold calls_of. rewrite Hps.
      rewrite <- !app_assoc. reflexivity.
Qed.

(** X9: when a statement of the batch cannot be prepared or bound, the
    batch handler answers 500 with ["failed to batch query: "] followed by
    that error; the queries after it are not prepared and [batch] is
    never called. *)
Theorem batch_handler_stops_at_first_failure (c : Context) (d : D1Database)
    (good : list PreparedQueryData) (sts : list (D1PreparedStatement d))
    (bad : PreparedQueryData) (rest : list PreparedQueryData) (err : exn)
    (log : list db_call) :
  DB (env c) = Some d ->
  Forall2 (fun q st => statement_of d q = Normal st) good sts ->
  statement_of d bad = Throw err ->
  exists calls,
    batch_handler c (good ++ bad :: rest) log
    = (Normal (failed "failed to batch query: " err),
       (log ++ flat_map calls_of good ++ calls)%list)
    /\ incl calls (calls_of bad)
    /\ forall n, ~ In (CallBatch n) (flat_map calls_of good ++ calls).
Proof.
  intros Hd Hgood Hbad. unfold batch_handler. rewrite try_json_eq.
  unfold batch_block. rewrite (env_DB_bound _ _ _ Hd).
  unfold bindM at 1. unfold ret at 1. unfold bindM at 1.
  destruct (prepare_statements_stops d good sts bad rest err Hgood Hbad [] log)
    as (calls & -> & Hincl).
  exists calls. split; [reflexivity|]. split; [exact Hincl|].
  intros n Hin. apply in_app_or in Hin. destruct Hin as [Hin|Hin].
  - apply in_flat_map in Hin. destruct Hin as (q & _ & Hin).
    exact (calls_of_no_batch q n Hin).
  - exact (calls_of_no_batch bad n (Hincl _ Hin)).
Qed.

Lemma batch_handler_stops_at_first_failure_witness :
  exists calls,
    batch_handler (mkContext (post "/query/batch/" None VNull) strict_env)
      [mkPreparedQuery "SELECT 1" None; mkPreparedQuery "SELEC 1" None;
       mkPreparedQuery "SELECT 2" None] []
    = (Normal (failed "failed to batch query: " syntax_error),
       (CallPrepare "SELECT 1" :: calls))
    /\ incl calls [CallPrepare "SELEC 1"]
    /\ forall n, ~ In (CallBatch n) (CallPrepare "SELECT 1" :: calls).
Proof.
  apply (batch_handler_stops_at_first_failure
           (mkContext (post "/query/batch/" None VNull) strict_env) strict_db
           [mkPreparedQuery "SELECT 1" None] [("SELECT 1", [])]
           (mkPreparedQuery "SELEC 1" None) [mkPreparedQuery "SELECT 2" None]
           syntax_error []).
  - reflexivity.
  - repeat constructor.
  - reflexivity.
Defined.

(** X10: when every statement is prepared and the [batch] call itself
    throws, the batch handler answers 500 with ["failed to batch query: "]
    followed by the error, after one [batch] call on all N statements. *)
Theorem batch_handler_backend_failure (c : Context) (d : D1Database)
    (qs : list PreparedQueryData) (sts : list (D1PreparedStatement d))
    (err : exn) (log : list db_call) :
  DB (env c) = Some d ->
  Forall2 (fun q st => statement_of d q = Normal st) qs sts ->
  batch d sts = Throw err ->
  batch_handler c qs log
  = (Normal (failed "failed to batch query: " err),
     (log ++ flat_map calls_of qs ++ [CallBatch (List.length qs)])%list).
Proof.
  intros Hd Hst Hb. unfold batch_handler. rewrite try_json_eq.
  unfold batch_block. rewrite (env_DB_bound _ _ _ Hd).
  unfold bindM at 1. unfold ret at 1.
  unfold bindM at 1. rewrite (prepare_statements_in_order d qs sts Hst).
  cbn [List.app]. unfold bindM, call. rewrite Hb.
  rewrite (Forall2_length Hst), app_assoc. reflexivity.
Qed.

Lemma batch_handler_backend_failure_witness :
  batch_handler (mkContext (post "/query/batch/" None VNull) strict_env)
    [mkPreparedQuery "SELECT 1" None; mkPreparedQuery "SELECT ?" (Some [VNum 2])] []
  = (Normal (failed "failed to batch query: " batch_rejected),
     [CallPrepare "SELECT 1"; CallPrepare "SELECT ?"; CallBind [VNum 2];
      CallBatch 2]).
Proof.
  apply (batch_handler_backend_failure
           (mkContext (post "/query/batch/" None VNull) strict_env) strict_db
           [mkPreparedQuery "SELECT 1" None; mkPreparedQuery "SELECT ?" (Some [VNum 2])]
           [("SELECT 1", []); ("SELECT ?", [VNum 2])] batch_rejected []).
  - reflexivity.
  - repeat constructor.
  - reflexivity.
Defined.

(* ------------------------------------------------------------------ *)
(** ** Configuration and routing *)

(** X11: with a secret shorter than 16 characters [fetch] throws the
    configuration error for every request, whatever its route or
    headers, before any backend call. *)
Theorem short_secret_fails_every_request (rq : Request) (e : Env)
    (d : D1Database) (s : string) :
  DB e = Some d -> APP_SECRET e = Some s -> (js_length s < 16)%N ->
  run_M (fetch rq e) = (Throw secret_too_short, []).
Proof.
  intros Hd Hs Hlen. unfold run_M, fetch, D1HTTP_new, MIN_SECRET_LENGTH.
  rewrite Hd, Hs.
  destruct (N.ltb_spec (js_length s) 16); [reflexivity|lia].
Qed.

Lemma short_secret_fails_every_request_witness :
  run_M (fetch (mkRequest "GET" "/" None None)
           (mkEnv (Some stub_db) (Some "fifteen chars..")))
  = (Throw secret_too_short, []).
Proof.
  apply (short_secret_fails_every_request _ _ stub_db "fifteen chars..");
    reflexivity.
Defined.

(** X12: the root route is registered outside the [query] group: a
    request to [/] is answered with 200 for any method and with or
    without an Authorization header, and makes no backend call. *)
Theorem root_route_is_public (rq : Request) (e : Env) (d : D1Database)
    (s : string) :
  configured e d s -> path rq = "/" ->
  exists r, run_M (fetch rq e) = (Normal r, []) /\ status r = 200.
Proof.
  intros Hc Hp. unfold run_M. rewrite (fetch_pipeline _ _ _ _ _ Hc).
  unfold pipeline. rewrite Hp. eexists. split; reflexivity.
Qed.

Lemma root_route_is_public_witness :
  exists r, run_M (fetch (mkRequest "GET" "/" None None) stub_env) = (Normal r, [])
            /\ status r = 200.
Proof.
  apply (root_route_is_public _ stub_env stub_db stub_secret); [|reflexivity].
  repeat split. vm_compute. discriminate.
Defined.

Lemma authorized_bearer (s : string) (rq : Request) :
  authorized s rq = true -> authorization rq = bearer s.
Proof.
  unfold authorized, bearer. destruct (authorization rq) as [header|];
    [|discriminate].
  intros H. apply String.eqb_eq in H. subst header. reflexivity.
Qed.

Lemma validated_log {A} (sc : schema A) (h : Context -> A -> M Response)
    (c : Context) :
  snd (validated sc h c []) <> [] ->
  exists v data, json (req c) = Some v /\ sc v = Some data.
Proof.
  unfold validated, zValidator.
  destruct (json (req c)) as [v|]; [|intros H; contradiction H; reflexivity].
  destruct (sc v) as [data|] eqn:Hv; [|intros H; contradiction H; reflexivity].
  intros _. exists v, data. split; [reflexivity|exact Hv].
Qed.

(** X13: the configured worker calls the backend only for a POST that
    carries the bearer secret, goes to one of the three [query] routes and
    has a body the route's schema accepts. *)
Theorem backend_called_only_for_valid_authenticated_post (rq : Request)
    (e : Env) (d : D1Database) (s : string) :
  configured e d s -> snd (run_M (fetch rq e)) <> [] ->
  authorization rq = bearer s /\ method rq = "POST"
  /\ exists v, json rq = Some v
       /\ ((path rq = "/query/all/" /\ exists q, PreparedQuery v = Some q)
           \/ (path rq = "/query/exec/" /\ exists q, ExecQuery v = Some q)
           \/ (path rq = "/query/batch/" /\ exists qs, BatchQuery v = Some qs)).
Proof.
  intros Hc. unfold run_M. rewrite (fetch_pipeline _ _ _ _ _ Hc).
  unfold pipeline. cbv zeta.
  destruct ("/" =? path rq); [intros H; contradiction H; reflexivity|].
  destruct (prefix "/query/" (path rq)); [|intros H; contradiction H; reflexivity].
  destruct (authorized s rq) eqn:Ha; [|intros H; contradiction H; reflexivity].
  apply authorized_bearer in Ha.
  destruct ("POST" =? method rq) eqn:Hm; [|intros H; contradiction H; reflexivity].
  apply String.eqb_eq in Hm. symmetry in Hm.
  destruct ("/query/all/" =? path rq) eqn:H1.
  { apply String.eqb_eq in H1. intros H. apply validated_log in H.
    destruct H as (v & q & Hj & Hq). repeat split; try assumption.
    exists v. split; [exact Hj|]. left. split; [congruence|eauto]. }
  destruct ("/query/exec/" =? path rq) eqn:H2.
  { apply String.eqb_eq in H2. intros H. apply validated_log in H.
    destruct H as (v & q & Hj & Hq). repeat split; try assumption.
    exists v. split; [exact Hj|]. right. left. split; [congruence|eauto]. }
  destruct ("/query/batch/" =? path rq) eqn:H3.
  { apply String.eqb_eq in H3. intros H. apply validated_log in H.
    destruct H as (v & q & Hj & Hq). repeat split; try assumption.
    exists v. split; [exact Hj|]. right. right. split; [congruence|eauto]. }
  intros H; contradiction H; reflexivity.
Qed.

Lemma backend_called_only_for_valid_authenticated_post_witness :
  authorization (post "/query/exec/" (bearer stub_secret) insert_one)
    = bearer stub_secret
  /\ method (post "/query/exec/" (bearer stub_secret) insert_one) = "POST"
  /\ exists v, json (post "/query/exec/" (bearer stub_secret) insert_one) = Some v
       /\ ((path (post "/query/exec/" (bearer stub_secret) insert_one) = "/query/all/"
            /\ exists q, PreparedQuery v = Some q)
           \/ (path (post "/query/exec/" (bearer stub_secret) insert_one) = "/query/exec/"
               /\ exists q, ExecQuery v = Some q)
           \/ (path (post "/query/exec/" (bearer stub_secret) insert_one) = "/query/batch/"
               /\ exists qs, BatchQuery v = Some qs)).
Proof.
  apply (backend_called_only_for_valid_authenticated_post _ stub_env stub_db
           stub_secret).
  - repeat split. vm_compute. discriminate.
  - vm_compute. discriminate.
Defined.

(** X14: for an authenticated POST with an accepted body, [fetch] is the
    route's handler run on the validated data. *)
Theorem authenticated_post_reaches_handler (rq : Request) (e : Env)
    (d : D1Database) (s : string) (v : value) (log : list db_call) :
  configured e d s -> authorization rq = bearer s -> method rq = "POST" ->
  json rq = Some v ->
  (path rq = "/query/all/" -> forall q, PreparedQuery v = Some q ->
     fetch rq e log = all_handler (mkContext rq e) q log)
  /\ (path rq = "/query/exec/" -> forall q, ExecQuery v = Some q ->
        fetch rq e log = exec_handler (mkContext rq e) q log)
  /\ (path rq = "/query/batch/" -> forall qs, BatchQuery v = Some qs ->
        fetch rq e log = batch_handler (mkContext rq e) qs log).
Proof.
  intros Hc Ha Hm Hj. rewrite (fetch_pipeline _ _ _ _ _ Hc).
  repeat split; intros Hp q Hq.
  - rewrite (pipeline_post s rq e "all/" Ha Hm Hp). rewrite Hp. cbv zeta.
    replace ("/query/all/" =? "/query/all/") with true by reflexivity.
    cbv iota. unfold validated, zValidator. cbn [req]. rewrite Hj, Hq. reflexivity.
  - rewrite (pipeline_post s rq e "exec/" Ha Hm Hp). rewrite Hp. cbv zeta.
    replace ("/query/all/" =? "/query/exec/") with false by reflexivity.
    replace ("/query/exec/" =? "/query/exec/") with true by reflexivity.
    cbv iota. unfold validated, zValidator. cbn [req]. rewrite Hj, Hq. reflexivity.
  - rewrite (pipeline_post s rq e "batch/" Ha Hm Hp). rewrite Hp. cbv zeta.
    replace ("/query/all/" =? "/query/batch/") with false by reflexivity.
    replace ("/query/exec/" =? "/query/batch/") with false by reflexivity.
    replace ("/query/batch/" =? "/query/batch/") with true by reflexivity.
    cbv iota. unfold validated, zValidator. cbn [req]. rewrite Hj, Hq. reflexivity.
Qed.

Lemma authenticated_post_reaches_handler_witness :
  fetch (post "/query/exec/" (bearer stub_secret) insert_one) stub_env []
  = exec_handler
      (mkContext (post "/query/exec/" (bearer stub_secret) insert_one) stub_env)
      "INSERT INTO users VALUES(1,'a@example.com')" [].
Proof.
  refine (proj1 (proj2 (authenticated_post_reaches_handler
                          (post "/query/exec/" (bearer stub_secret) insert_one)
                          stub_env stub_db stub_secret insert_one []
                          _ eq_refl eq_refl eq_refl)) eq_refl _ eq_refl).
  repeat split. vm_compute. discriminate.
Defined.

(** X15: [/query/exec/] does not reject a body that carries [params]
    (the message [ERR_PARAMS_NOT_VALID_ENDPOINT] of line 42 is never
    used): the field is ignored, and the request is handled as the same
    body without it. *)
Theorem exec_ignores_params (e : Env) (d : D1Database) (s : string)
    (auth : option string) (fields : list (string * value)) (p : value)
    (log : list db_call) :
  configured e d s ->
  fetch (post "/query/exec/" auth (VObj (("params", p) :: fields))) e log
  = fetch (post "/query/exec/" auth (VObj fields)) e log.
Proof.
  intros Hc. rewrite !(fetch_pipeline _ _ _ _ _ Hc).
  unfold pipeline, post. cbn [path method]. cbv zeta.
  replace ("/" =? "/query/exec/") with false by reflexivity.
  replace (prefix "/query/" "/query/exec/") with true by reflexivity.
  unfold authorized. cbn [authorization].
  destruct auth as [header|]; [|reflexivity].
  destruct (header =? "Bearer " ++ s); [|reflexivity].
  replace ("POST" =? "POST") with true by reflexivity.
  replace ("/query/all/" =? "/query/exec/") with false by reflexivity.
  replace ("/query/exec/" =? "/query/exec/") with true by reflexivity.
  cbv iota. unfold validated, zValidator. cbn [req json].
  replace (ExecQuery (VObj (("params", p) :: fields)))
    with (ExecQuery (VObj fields)) by reflexivity.
  destruct (ExecQuery (VObj fields)); reflexivity.
Qed.

Lemma exec_ignores_params_witness :
  fetch (post "/query/exec/" (bearer stub_secret)
           (VObj [("params", VArr [VNum 1]); ("queryText", VStr "SELECT 1")]))
    stub_env []
  = fetch (post "/query/exec/" (bearer stub_secret)
             (VObj [("queryText", VStr "SELECT 1")])) stub_env [].
Proof.
  apply (exec_ignores_params stub_env stub_db stub_secret).
  repeat split. vm_compute. discriminate.
Defined.
